(** * Assistants routes: a shallow embedding of [impl/routes/assistants.py]

    The five endpoints ([list_assistants], [create_assistant],
    [modify_assistant], [delete_assistant], [get_assistant]) are embedded as
    computations in a state-and-exception monad over the [assistants] table.
    The pydantic models and the [CassandraClient] adapter are imported by the
    routes module but are not part of it; they are modelled below, each under
    a comment that says so. *)

From stdpp Require Import gmap strings list fin_maps.

Set Warnings "-register-all".

(** ** Outcomes and the route monad *)

(** The exceptions a route can end with: the [HTTPException]s the routes
    raise themselves, pydantic's [ValidationError] (from [parse_raw]) and
    Python's [IndexError]. *)
Inductive Exn :=
  | HTTPException (status_code : Z) (detail : string)
  | ValidationError
  | IndexError.

Inductive Outcome (A : Type) :=
  | Returned (a : A)
  | Raised (e : Exn).
Arguments Returned {A} a.
Arguments Raised {A} e.

(** Exception-only computations (no access to the table). *)
Definition obind {A B} (o : Outcome A) (k : A → Outcome B) : Outcome B :=
  match o with
  | Returned a => k a
  | Raised e => Raised e
  end.

Declare Scope route_scope.
Delimit Scope route_scope with route.
Notation "'try' x := o 'in' k" := (obind o (fun x => k))
  (at level 10, x name, o at level 100, k at level 200) : route_scope.

(** ** JSON documents

    The table stores every tool as one JSON string. The text level (lexing,
    escaping) belongs to the JSON library; a stored string is represented by
    the document it denotes. *)
Module Json.
Inductive t :=
  | Null
  | Str (s : string)
  | Obj (members : list (string * t)).

Fixpoint get (k : string) (members : list (string * t)) : option t :=
  match members with
  | [] => None
  | (k', v) :: rest => if decide (k = k') then Some v else get k rest
  end.

Definition of_opt_string (o : option string) : t :=
  match o with
  | Some s => Str s
  | None => Null
  end.

(** An optional string member: absent and [null] both read as [None]. *)
Definition opt_string (k : string) (members : list (string * t))
  : Outcome (option string) :=
  match get k members with
  | None | Some Null => Returned None
  | Some (Str s) => Returned (Some s)
  | Some (Obj _) => Raised ValidationError
  end.
End Json.

(** ** Models *)

(** Modelled from the spec: the function-definition payload carried by a
    [function] tool ([FunctionObject] of the model package, which is not
    among the sources); the parameter schema is kept as text. *)
Module FunctionObject.
Record t := mk {
  description : option string;
  name : string;
  parameters : option string;
}.

Definition json (f : t) : Json.t :=
  Json.Obj [("description", Json.of_opt_string (description f));
            ("name", Json.Str (name f));
            ("parameters", Json.of_opt_string (parameters f))].

Definition parse_obj (members : list (string * Json.t)) : Outcome t :=
  (try d := Json.opt_string "description" members in
   try p := Json.opt_string "parameters" members in
   match Json.get "name" members with
   | Some (Json.Str n) => Returned (mk d n p)
   | _ => Raised ValidationError
   end)%route.
End FunctionObject.

(** Modelled from the spec: the closed set of tool tags of
    [AssistantObjectToolsInner.type]. *)
Inductive ToolType := code_interpreter | retrieval | function.

Definition ToolType_str (ty : ToolType) : string :=
  match ty with
  | code_interpreter => "code_interpreter"
  | retrieval => "retrieval"
  | function => "function"
  end.

Definition ToolType_of_str (s : string) : option ToolType :=
  if decide (s = "code_interpreter") then Some code_interpreter
  else if decide (s = "retrieval") then Some retrieval
  else if decide (s = "function") then Some function
  else None.

(** Modelled from the spec: [AssistantObjectToolsInner] of the model package
    (not among the sources). The routes build it with the two keyword
    arguments [type] and [function]; [json] and [parse_raw] are the pydantic
    serialisation and validation of exactly these two fields. *)
Module AssistantObjectToolsInner.
Record t := mk {
  type : ToolType;
  function : option FunctionObject.t;
}.

Definition json (tool : t) : Json.t :=
  Json.Obj [("type", Json.Str (ToolType_str (type tool)));
            ("function",
             match function tool with
             | Some f => FunctionObject.json f
             | None => Json.Null
             end)].

Definition parse_raw (doc : Json.t) : Outcome t :=
  match doc with
  | Json.Obj members =>
      match Json.get "type" members with
      | Some (Json.Str s) =>
          match ToolType_of_str s with
          | Some ty =>
              match Json.get "function" members with
              | None | Some Json.Null => Returned (mk ty None)
              | Some (Json.Obj fm) =>
                  (try f := FunctionObject.parse_obj fm in
                   Returned (mk ty (Some f)))%route
              | Some (Json.Str _) => Raised ValidationError
              end
          | None => Raised ValidationError
          end
      | _ => Raised ValidationError
      end
  | _ => Raised ValidationError
  end.
End AssistantObjectToolsInner.

#[global] Instance FunctionObject_eq_dec : EqDecision FunctionObject.t.
Proof. solve_decision. Defined.
#[global] Instance ToolType_eq_dec : EqDecision ToolType.
Proof. solve_decision. Defined.
#[global] Instance AssistantObjectToolsInner_eq_dec :
  EqDecision AssistantObjectToolsInner.t.
Proof. solve_decision. Defined.

(** The public representation, with the ten keyword arguments the routes
    pass to its constructor. [name], [description], [model] and
    [instructions] may be [None]: [list_assistants] passes table columns
    through unchanged. *)
Module AssistantObject.
Record t := mk {
  id : string;
  object : string;
  created_at : Z;
  name : option string;
  description : option string;
  model : option string;
  instructions : option string;
  tools : list AssistantObjectToolsInner.t;
  file_ids : list string;
  metadata : gmap string string;
}.
End AssistantObject.

(** The request bodies: the attributes the routes read from them. Every
    attribute may be [None]. *)
Module CreateAssistantRequest.
Record t := mk {
  name : option string;
  description : option string;
  model : option string;
  instructions : option string;
  tools : option (list AssistantObjectToolsInner.t);
  file_ids : option (list string);
  metadata : option (gmap string string);
}.
End CreateAssistantRequest.

Module ModifyAssistantRequest.
Record t := mk {
  name : option string;
  description : option string;
  model : option string;
  instructions : option string;
  tools : option (list AssistantObjectToolsInner.t);
  file_ids : option (list string);
  metadata : option (gmap string string);
}.
End ModifyAssistantRequest.

Module ListAssistantsResponse.
Record t := mk {
  data : list AssistantObject.t;
  object : string;
  first_id : string;
  last_id : string;
  has_more : bool;
}.
End ListAssistantsResponse.

Module DeleteAssistantResponse.
Record t := mk {
  id : string;
  deleted : bool;
  object : string;
}.
End DeleteAssistantResponse.

(** ** The store adapter *)

(** Modelled from the spec: the [assistants] table and the four
    [CassandraClient] methods the routes call ([impl.astra_vector] is not
    among the sources). The spec's contract is a table keyed by [id] with
    upsert-by-id, get-by-id, a full scan in a store-defined order and
    delete-by-id; an upsert replaces the whole row. Columns may hold null,
    which is what the [is None] tests of [list_assistants] guard against;
    [created_at] is kept in epoch seconds, as the routes write it. *)
Module Row.
Record t := mk {
  id : string;
  created_at : Z;
  name : option string;
  description : option string;
  model : option string;
  instructions : option string;
  tools : option (list Json.t);
  file_ids : option (list string);
  metadata : option (gmap string string);
  object : string;
}.
End Row.

(** A route is run against the table and leaves a table behind, whether it
    returns or raises. *)
Definition Route (A : Type) : Type :=
  gmap string Row.t → Outcome A * gmap string Row.t.

Definition ret {A} (a : A) : Route A := λ db, (Returned a, db).
Definition raise {A} (e : Exn) : Route A := λ db, (Raised e, db).
Definition bind {A B} (m : Route A) (k : A → Route B) : Route B :=
  λ db, match m db with
        | (Returned a, db') => k a db'
        | (Raised e, db') => (Raised e, db')
        end.
Definition lift {A} (o : Outcome A) : Route A := λ db, (o, db).

Notation "'do' x <- m ; k" := (bind m (fun x => k))
  (at level 10, x name, m at level 100, k at level 200) : route_scope.
Notation "'run' m ; k" := (bind m (fun _ => k))
  (at level 10, m at level 100, k at level 200) : route_scope.

Local Open Scope route_scope.

(** The body of the [for assistant in raw_assistants] loop of
    [list_assistants] (lines 62-93): one stored row to its public form. The
    inner loop appends each decoded tool to [tools]. A null [model] is only
    logged (lines 79-80) and passed on. *)
Fixpoint decode_tools (toolsJson : list Json.t)
    (tools : list AssistantObjectToolsInner.t)
    : Outcome (list AssistantObjectToolsInner.t) :=
  match toolsJson with
  | [] => Returned tools
  | json_string :: rest =>
      try tool := AssistantObjectToolsInner.parse_raw json_string in
      decode_tools rest (tools ++ [tool])
  end.

Definition row_to_assistant (assistant : Row.t) : Outcome AssistantObject.t :=
  let created_at := (Row.created_at assistant * 1000)%Z in
  let metadata :=
    match Row.metadata assistant with Some m => m | None => ∅ end in
  let file_ids :=
    match Row.file_ids assistant with Some l => l | None => [] end in
  try tools :=
    match Row.tools assistant with
    | Some toolsJson => decode_tools toolsJson []
    | None => Returned []
    end in
  Returned (AssistantObject.mk
    (Row.id assistant)
    "assistant"
    created_at
    (Row.name assistant)
    (Row.description assistant)
    (Row.model assistant)
    (Row.instructions assistant)
    tools
    file_ids
    metadata).

(** The spec's wording of the list result, to compare [list_assistants]
    with: every record of the scan mapped to its public form, in scan order;
    a record that fails to decode fails the whole sequence. *)
Fixpoint mapped_scan (rows : list Row.t) : Outcome (list AssistantObject.t) :=
  match rows with
  | [] => Returned []
  | row :: rest =>
      try a := row_to_assistant row in
      try l := mapped_scan rest in
      Returned (a :: l)
  end.

Module CassandraClient.
(** Full scan, in the order the store defines. *)
Definition scan (db : gmap string Row.t) : list Row.t :=
  snd <$> map_to_list db.

Definition selectAllFromTable : Route (list Row.t) :=
  λ db, (Returned (scan db), db).

(** Tools are serialised one by one; the row replaces any row with the
    same key. *)
Definition upsert_assistant (id : string) (created_at : Z)
    (name description model instructions : option string)
    (tools : list AssistantObjectToolsInner.t) (file_ids : list string)
    (metadata : gmap string string) (object : string) : Route unit :=
  λ db,
    (Returned (),
     <[id := Row.mk id created_at name description model instructions
               (Some (AssistantObjectToolsInner.json <$> tools))
               (Some file_ids) (Some metadata) object]> db).

(** A point read, mapped to the public form as on the list path; [None]
    when no row has the key. *)
Definition get_assistant (id : string) : Route (option AssistantObject.t) :=
  λ db,
    match db !! id with
    | None => (Returned None, db)
    | Some row =>
        match row_to_assistant row with
        | Returned a => (Returned (Some a), db)
        | Raised e => (Raised e, db)
        end
    end.

Definition delete_assistant (id : string) : Route unit :=
  λ db, (Returned (), delete id db).
End CassandraClient.

(** ** The routes *)

(** [l[i]], which raises [IndexError] out of range. *)
Definition index {A} (l : list A) (i : nat) : Route A :=
  match l !! i with
  | Some x => ret x
  | None => raise IndexError
  end.

(** The outer loop of [list_assistants]: [assistants.append] per row, the
    first failing row aborts the whole call. *)
Fixpoint map_rows (raw_assistants : list Row.t)
    (assistants : list AssistantObject.t) : Outcome (list AssistantObject.t) :=
  match raw_assistants with
  | [] => Returned assistants
  | assistant :: rest =>
      try a := row_to_assistant assistant in
      map_rows rest (assistants ++ [a])
  end.

Definition list_assistants (limit : Z) (order : string)
    (after before : option string) : Route ListAssistantsResponse.t :=
  do raw_assistants <- CassandraClient.selectAllFromTable;
  let assistants := [] in
  if decide (length raw_assistants = 0) then
    ret (ListAssistantsResponse.mk assistants "assistant" "none" "none" false)
  else
    do assistants <- lift (map_rows raw_assistants assistants);
    do first <- index raw_assistants 0;
    do last <- index raw_assistants (length raw_assistants - 1);
    let first_id := Row.id first in
    let last_id := Row.id last in
    ret (ListAssistantsResponse.mk assistants "assistants" first_id last_id
           false).

(** [uuid1()] and the clock are inputs: [assistant_id] is the generated id,
    [now] the value of [int(time.mktime(datetime.now().timetuple()))]. *)
Definition create_assistant (assistant_id : string) (now : Z)
    (create_assistant_request : CreateAssistantRequest.t)
    : Route AssistantObject.t :=
  let metadata :=
    match CreateAssistantRequest.metadata create_assistant_request with
    | Some m => m | None => ∅ end in
  let file_ids :=
    match CreateAssistantRequest.file_ids create_assistant_request with
    | Some l => l | None => [] end in
  let tools :=
    match CreateAssistantRequest.tools create_assistant_request with
    | Some l => l | None => [] end in
  let retrieval_tool := AssistantObjectToolsInner.mk retrieval None in
  (* [file_ids is not None] holds after the defaulting above *)
  if bool_decide (retrieval_tool ∉ tools) && bool_decide (file_ids ≠ []) then
    raise (HTTPException 400
             "Retrieval tool is required when file_ids is not [].")
  else
    let description :=
      match CreateAssistantRequest.description create_assistant_request with
      | Some d => d | None => "" end in
    let created_at := now in
    run CassandraClient.upsert_assistant
          assistant_id
          created_at
          (CreateAssistantRequest.name create_assistant_request)
          (Some description)
          (CreateAssistantRequest.model create_assistant_request)
          (CreateAssistantRequest.instructions create_assistant_request)
          tools
          file_ids
          metadata
          "assistant";
    let name :=
      match CreateAssistantRequest.name create_assistant_request with
      | Some n => n | None => "" end in
    let updated_assistant :=
      AssistantObject.mk
        assistant_id
        "assistant"
        created_at
        (Some name)
        (Some description)
        (CreateAssistantRequest.model create_assistant_request)
        (CreateAssistantRequest.instructions create_assistant_request)
        tools
        file_ids
        metadata in
    ret updated_assistant.

(** What [modify_assistant] hands back: [assistant], the result of the
    second read (line 225), or the object made by the call expression of
    line 207. [modify_assistant] is an [async def], so that call expression
    runs none of its body: it makes a coroutine object holding the same
    arguments, and this object is the returned value. *)
Inductive ModifyReturn :=
  | RetAssistant (assistant : option AssistantObject.t)
  | RetCoroutine (assistant_id : string)
      (modify_assistant_request : ModifyAssistantRequest.t).

(** [asyncio.sleep(1)] on line 206 is not awaited either: it makes a
    coroutine object and drops it, without suspending. *)
Definition modify_assistant (now : Z) (assistant_id : string)
    (modify_assistant_request : ModifyAssistantRequest.t)
    : Route ModifyReturn :=
  let metadata :=
    match ModifyAssistantRequest.metadata modify_assistant_request with
    | Some m => m | None => ∅ end in
  let file_ids :=
    match ModifyAssistantRequest.file_ids modify_assistant_request with
    | Some l => l | None => [] end in
  let tools :=
    match ModifyAssistantRequest.tools modify_assistant_request with
    | Some l => l | None => [] end in
  let description :=
    match ModifyAssistantRequest.description modify_assistant_request with
    | Some d => d | None => "" end in
  do assistant <- CassandraClient.get_assistant assistant_id;
  match assistant with
  | None => ret (RetCoroutine assistant_id modify_assistant_request)
  | Some _ =>
      run CassandraClient.upsert_assistant
            assistant_id
            now
            (ModifyAssistantRequest.name modify_assistant_request)
            (Some description)
            (ModifyAssistantRequest.model modify_assistant_request)
            (ModifyAssistantRequest.instructions modify_assistant_request)
            tools
            file_ids
            metadata
            "assistant";
      do assistant <- CassandraClient.get_assistant assistant_id;
      ret (RetAssistant assistant)
  end.

(** Driving the returned coroutine objects: each [await] of one runs the
    body of [modify_assistant] once more on the arguments it holds. [n]
    bounds the number of awaits the caller is willing to perform; the route
    itself carries no bound. *)
Fixpoint await_modify (n : nat) (now : Z) (assistant_id : string)
    (modify_assistant_request : ModifyAssistantRequest.t)
    : Route ModifyReturn :=
  do r <- modify_assistant now assistant_id modify_assistant_request;
  match n, r with
  | S n', RetCoroutine assistant_id' request' =>
      await_modify n' now assistant_id' request'
  | _, _ => ret r
  end.

Definition delete_assistant (assistant_id : string)
    : Route DeleteAssistantResponse.t :=
  run CassandraClient.delete_assistant assistant_id;
  ret (DeleteAssistantResponse.mk assistant_id true "assistant").

Definition get_assistant (assistant_id : string) : Route AssistantObject.t :=
  do assistant <- CassandraClient.get_assistant assistant_id;
  match assistant with
  | None => raise (HTTPException 404 "Assistant not found.")
  | Some a => ret a
  end.

(** ** Sample data

    Two requests and the tables they lead to, used to run the routes. *)

(** [file_ids=["f1"]], [tools=[{type: retrieval}]], nothing else but the
    model. *)
Definition sample_create : CreateAssistantRequest.t :=
  CreateAssistantRequest.mk None None (Some "gpt-4") None
    (Some [AssistantObjectToolsInner.mk retrieval None]) (Some ["f1"]) None.

(** [file_ids=["f1"]], [tools=[]]. *)
Definition sample_create_no_tool : CreateAssistantRequest.t :=
  CreateAssistantRequest.mk (Some "helper") None (Some "gpt-4") None
    (Some []) (Some ["f1"]) None.

(** The empty body, and a body with files but only a code interpreter. *)
Definition sample_modify_empty : ModifyAssistantRequest.t :=
  ModifyAssistantRequest.mk None None None None None None None.

Definition sample_modify_files : ModifyAssistantRequest.t :=
  ModifyAssistantRequest.mk (Some "helper") None (Some "gpt-4") None
    (Some [AssistantObjectToolsInner.mk code_interpreter None])
    (Some ["f1"; "f2"]) None.

(** The table after one create on the empty table, at time 17. *)
Definition sample_table : gmap string Row.t :=
  snd (create_assistant "asst-1" 17 sample_create ∅).

(** A row written outside the routes, with a tool tag [parse_raw] does not
    know, filed next to the row of [sample_table]. *)
Definition sample_broken_row : Row.t :=
  Row.mk "asst-2" 18 None None None None
    (Some [Json.Obj [("type", Json.Str "browser")]]) None None "assistant".

Definition sample_broken_table : gmap string Row.t :=
  <["asst-2" := sample_broken_row]> sample_table.

(** ** Well-formed tables

    What the routes' own writes establish: every row is filed under its own
    [id] and maps to a public object. *)
Definition decodes (row : Row.t) : bool :=
  match row_to_assistant row with
  | Returned _ => true
  | Raised _ => false
  end.

Definition consistent (db : gmap string Row.t) : Prop :=
  map_Forall (λ k row, Row.id row = k ∧ decodes row = true) db.

(** * Auxiliary lemmas *)

(** ** Serialisation of tools *)

Lemma parse_raw_json (tool : AssistantObjectToolsInner.t) :
  AssistantObjectToolsInner.parse_raw (AssistantObjectToolsInner.json tool)
  = Returned tool.
Proof.
  destruct tool as [ty [[d n p]|]]; destruct ty; try reflexivity;
    destruct d, p; reflexivity.
Qed.

Lemma decode_tools_json (tools acc : list AssistantObjectToolsInner.t) :
  decode_tools (AssistantObjectToolsInner.json <$> tools) acc
  = Returned (acc ++ tools).
Proof.
  revert acc. induction tools as [|tool tools IH]; intros acc.
  - simpl. by rewrite app_nil_r.
  - rewrite fmap_cons. cbn [decode_tools]. rewrite parse_raw_json.
    cbn [obind]. rewrite IH. by rewrite <- app_assoc.
Qed.

(** A row written by [upsert_assistant] always maps back to a public
    object, with the tools that were written. *)
Lemma row_to_assistant_upserted id created_at name description model
    instructions tools file_ids metadata object :
  row_to_assistant
    (Row.mk id created_at name description model instructions
       (Some (AssistantObjectToolsInner.json <$> tools))
       (Some file_ids) (Some metadata) object)
  = Returned (AssistantObject.mk id "assistant" (created_at * 1000)
                name description model instructions tools file_ids metadata).
Proof.
  unfold row_to_assistant. simpl. by rewrite decode_tools_json.
Qed.

(** ** The list loop against the spec's mapped scan *)

Lemma map_rows_mapped_scan (raw : list Row.t) (acc : list AssistantObject.t) :
  map_rows raw acc
  = (try l := mapped_scan raw in Returned (acc ++ l)).
Proof.
  revert acc. induction raw as [|row raw IH]; intros acc; simpl.
  - by rewrite app_nil_r.
  - destruct (row_to_assistant row) as [a|e]; simpl; [|done].
    rewrite IH. destruct (mapped_scan raw) as [l|e]; simpl; [|done].
    by rewrite <- app_assoc.
Qed.

Lemma scan_nil_iff (db : gmap string Row.t) :
  CassandraClient.scan db = [] ↔ db = ∅.
Proof.
  unfold CassandraClient.scan. split.
  - intros H. apply fmap_nil_inv in H. by apply map_to_list_empty_iff.
  - intros ->. by rewrite map_to_list_empty.
Qed.

Lemma list_assistants_nonempty limit order after before
    (db : gmap string Row.t) first final :
  head (CassandraClient.scan db) = Some first →
  last (CassandraClient.scan db) = Some final →
  list_assistants limit order after before db
  = ((try data := mapped_scan (CassandraClient.scan db) in
      Returned (ListAssistantsResponse.mk data "assistants"
                  (Row.id first) (Row.id final) false)), db).
Proof.
  intros Hfirst Hfinal.
  unfold list_assistants, bind, CassandraClient.selectAllFromTable, lift.
  destruct (decide (length (CassandraClient.scan db) = 0)) as [Hlen|Hlen].
  { apply length_zero_iff_nil in Hlen. by rewrite Hlen in Hfirst. }
  rewrite map_rows_mapped_scan.
  destruct (mapped_scan (CassandraClient.scan db)) as [data|e]; simpl; [|done].
  unfold index, ret.
  rewrite head_lookup in Hfirst. rewrite Hfirst.
  rewrite last_lookup in Hfinal.
  replace (length (CassandraClient.scan db) - 0 - 1)
    with (pred (length (CassandraClient.scan db))) by lia.
  replace (length (CassandraClient.scan db) - 1)
    with (pred (length (CassandraClient.scan db))) by lia.
  by rewrite Hfinal.
Qed.

(** ** The adapter on rows it wrote *)

Lemma adapter_get_absent (id : string) (db : gmap string Row.t) :
  fst (CassandraClient.get_assistant id db) = Returned None ↔ db !! id = None.
Proof.
  unfold CassandraClient.get_assistant. split.
  - destruct (db !! id) as [row|]; [|done].
    destruct (row_to_assistant row); discriminate.
  - by intros ->.
Qed.

Lemma adapter_get_present (id : string) (db : gmap string Row.t) a :
  fst (CassandraClient.get_assistant id db) = Returned (Some a) →
  CassandraClient.get_assistant id db = (Returned (Some a), db).
Proof.
  unfold CassandraClient.get_assistant.
  destruct (db !! id) as [row|]; [|discriminate].
  destruct (row_to_assistant row); simpl; congruence.
Qed.

Lemma adapter_get_upserted id created_at name description model instructions
    tools file_ids metadata object (db : gmap string Row.t) :
  CassandraClient.get_assistant id
    (<[id := Row.mk id created_at name description model instructions
               (Some (AssistantObjectToolsInner.json <$> tools))
               (Some file_ids) (Some metadata) object]> db)
  = (Returned (Some (AssistantObject.mk id "assistant" (created_at * 1000)
                       name description model instructions tools file_ids
                       metadata)),
     <[id := Row.mk id created_at name description model instructions
               (Some (AssistantObjectToolsInner.json <$> tools))
               (Some file_ids) (Some metadata) object]> db).
Proof.
  unfold CassandraClient.get_assistant.
  by rewrite lookup_insert_eq, row_to_assistant_upserted.
Qed.

(** ** [modify_assistant] on a row that is there *)

Lemma modify_assistant_existing now id req (db : gmap string Row.t) before :
  fst (CassandraClient.get_assistant id db) = Returned (Some before) →
  modify_assistant now id req db
  = (Returned (RetAssistant (Some
       (AssistantObject.mk id "assistant" (now * 1000)
          (ModifyAssistantRequest.name req)
          (Some (default "" (ModifyAssistantRequest.description req)))
          (ModifyAssistantRequest.model req)
          (ModifyAssistantRequest.instructions req)
          (default [] (ModifyAssistantRequest.tools req))
          (default [] (ModifyAssistantRequest.file_ids req))
          (default ∅ (ModifyAssistantRequest.metadata req))))),
     <[id := Row.mk id now
               (ModifyAssistantRequest.name req)
               (Some (default "" (ModifyAssistantRequest.description req)))
               (ModifyAssistantRequest.model req)
               (ModifyAssistantRequest.instructions req)
               (Some (AssistantObjectToolsInner.json <$>
                        default [] (ModifyAssistantRequest.tools req)))
               (Some (default [] (ModifyAssistantRequest.file_ids req)))
               (Some (default ∅ (ModifyAssistantRequest.metadata req)))
               "assistant"]> db).
Proof.
  intros Hget%adapter_get_present.
  unfold modify_assistant, bind. rewrite Hget.
  unfold CassandraClient.upsert_assistant at 1.
  by rewrite adapter_get_upserted.
Qed.

(** ** [create_assistant] when the coupling check passes *)

Lemma create_assistant_returned assistant_id now req
    (db db' : gmap string Row.t) a :
  create_assistant assistant_id now req db = (Returned a, db') →
  a = AssistantObject.mk assistant_id "assistant" now
        (Some (default "" (CreateAssistantRequest.name req)))
        (Some (default "" (CreateAssistantRequest.description req)))
        (CreateAssistantRequest.model req)
        (CreateAssistantRequest.instructions req)
        (default [] (CreateAssistantRequest.tools req))
        (default [] (CreateAssistantRequest.file_ids req))
        (default ∅ (CreateAssistantRequest.metadata req))
  ∧ db' = <[assistant_id := Row.mk assistant_id now
               (CreateAssistantRequest.name req)
               (Some (default "" (CreateAssistantRequest.description req)))
               (CreateAssistantRequest.model req)
               (CreateAssistantRequest.instructions req)
               (Some (AssistantObjectToolsInner.json <$>
                        default [] (CreateAssistantRequest.tools req)))
               (Some (default [] (CreateAssistantRequest.file_ids req)))
               (Some (default ∅ (CreateAssistantRequest.metadata req)))
               "assistant"]> db.
Proof.
  unfold create_assistant.
  destruct (bool_decide _ && bool_decide _); [discriminate|].
  unfold bind, CassandraClient.upsert_assistant, ret.
  intros [= <- <-]. done.
Qed.

(** Create followed by get: every listed field but [name] comes back as it
    was returned; [name] comes back as the request had it. *)
Lemma create_get_fields assistant_id now req (db db' : gmap string Row.t) a :
  create_assistant assistant_id now req db = (Returned a, db') →
  ∃ a',
    get_assistant assistant_id db' = (Returned a', db')
    ∧ AssistantObject.name a' = CreateAssistantRequest.name req
    ∧ AssistantObject.name a
      = Some (default "" (CreateAssistantRequest.name req))
    ∧ AssistantObject.description a' = AssistantObject.description a
    ∧ AssistantObject.model a' = AssistantObject.model a
    ∧ AssistantObject.instructions a' = AssistantObject.instructions a
    ∧ AssistantObject.tools a' = AssistantObject.tools a
    ∧ AssistantObject.file_ids a' = AssistantObject.file_ids a
    ∧ AssistantObject.metadata a' = AssistantObject.metadata a.
Proof.
  intros [-> ->]%create_assistant_returned.
  eexists. split.
  - unfold get_assistant, bind. rewrite adapter_get_upserted. reflexivity.
  - simpl. repeat split; reflexivity.
Qed.

(** The coupling check of [create_assistant] on defaulted fields: files but
    no retrieval tool raise the 400 error before anything is written. *)
Lemma create_assistant_coupling assistant_id now req (db : gmap string Row.t) :
  default [] (CreateAssistantRequest.file_ids req) ≠ [] →
  (∀ tool, tool ∈ default [] (CreateAssistantRequest.tools req) →
           AssistantObjectToolsInner.type tool ≠ retrieval) →
  create_assistant assistant_id now req db
  = (Raised (HTTPException 400
               "Retrieval tool is required when file_ids is not []."), db).
Proof.
  intros Hne Htools. unfold create_assistant.
  rewrite bool_decide_eq_true_2.
  - rewrite bool_decide_eq_true_2 by exact Hne. reflexivity.
  - intros Hin. by apply (Htools _ Hin).
Qed.

(** * The routes against the specification *)

(** ** ModifyAssistant on an id the store does not have *)

(** C1 (as the code has it): when the store read for the id returns absent,
    [modify_assistant] does not end with a not-found error, however many
    times its result is awaited: every round reads once, writes nothing and
    hands back one more suspended call on the same arguments. The route has
    no retry budget to exhaust. *)
Theorem modify_assistant_absent_never_not_found (n : nat) now id req
    (db : gmap string Row.t) :
  fst (CassandraClient.get_assistant id db) = Returned None →
  await_modify n now id req db = (Returned (RetCoroutine id req), db)
  ∧ ∀ detail,
      fst (await_modify n now id req db) ≠ Raised (HTTPException 404 detail).
Proof.
  intros Habsent%adapter_get_absent.
  assert (Hstep : modify_assistant now id req db
                  = (Returned (RetCoroutine id req), db)).
  { unfold modify_assistant, bind, CassandraClient.get_assistant.
    by rewrite Habsent. }
  assert (Hall : await_modify n now id req db
                 = (Returned (RetCoroutine id req), db)).
  { induction n as [|n IH]; simpl; unfold bind; rewrite Hstep; [done|].
    exact IH. }
  split; [exact Hall|]. intros detail. by rewrite Hall.
Qed.

Lemma modify_assistant_absent_run :
  fst (CassandraClient.get_assistant "asst-9" sample_table) = Returned None
  ∧ await_modify 3 42 "asst-9" sample_modify_empty sample_table
    = (Returned (RetCoroutine "asst-9" sample_modify_empty), sample_table)
  ∧ ∀ detail,
      fst (await_modify 3 42 "asst-9" sample_modify_empty sample_table)
      ≠ Raised (HTTPException 404 detail).
Proof.
  split; [reflexivity|].
  apply (modify_assistant_absent_never_not_found
           3 42 "asst-9" sample_modify_empty sample_table).
  reflexivity.
Defined.

(** ** CreateAssistant and the tool/file coupling *)

(** C2: a create request with a non-empty [file_ids] and no tool of type
    [retrieval] ends with the 400 error and leaves the table as it was. *)
Theorem create_assistant_rejects_without_retrieval assistant_id now req
    (db : gmap string Row.t) file_ids :
  CreateAssistantRequest.file_ids req = Some file_ids →
  file_ids ≠ [] →
  (∀ tool, tool ∈ default [] (CreateAssistantRequest.tools req) →
           AssistantObjectToolsInner.type tool ≠ retrieval) →
  create_assistant assistant_id now req db
  = (Raised (HTTPException 400
               "Retrieval tool is required when file_ids is not []."), db).
Proof.
  intros Hfiles Hne Htools.
  apply create_assistant_coupling; [by rewrite Hfiles | exact Htools].
Qed.

Lemma create_assistant_rejects_run :
  CreateAssistantRequest.file_ids sample_create_no_tool = Some ["f1"]
  ∧ ["f1"] ≠ []
  ∧ (∀ tool,
       tool ∈ default [] (CreateAssistantRequest.tools sample_create_no_tool) →
       AssistantObjectToolsInner.type tool ≠ retrieval)
  ∧ create_assistant "asst-2" 18 sample_create_no_tool sample_table
    = (Raised (HTTPException 400
                 "Retrieval tool is required when file_ids is not []."),
       sample_table).
Proof.
  assert (H1 : CreateAssistantRequest.file_ids sample_create_no_tool
               = Some ["f1"]) by reflexivity.
  assert (H2 : ["f1"] ≠ ([] : list string)) by discriminate.
  assert (H3 : ∀ tool,
             tool ∈ default []
                      (CreateAssistantRequest.tools sample_create_no_tool) →
             AssistantObjectToolsInner.type tool ≠ retrieval).
  { intros tool Hin. simpl in Hin. by apply elem_of_nil in Hin. }
  split_and!; [exact H1 | exact H2 | exact H3 |].
  exact (create_assistant_rejects_without_retrieval
           "asst-2" 18 sample_create_no_tool sample_table ["f1"] H1 H2 H3).
Defined.

(** C3 (as the code has it): a create request without a name succeeds, and
    the object it returns carries the name [""], while the record read back
    under the returned id carries no name: the two differ on [name]. The
    other six fields agree (see [create_get_fields]). *)
Theorem create_assistant_name_differs_on_get :
  ∃ a a' db',
    create_assistant "asst-1" 17 sample_create ∅ = (Returned a, db')
    ∧ get_assistant "asst-1" db' = (Returned a', db')
    ∧ CreateAssistantRequest.name sample_create = None
    ∧ AssistantObject.name a = Some ""
    ∧ AssistantObject.name a' = None.
Proof.
  destruct (create_assistant "asst-1" 17 sample_create ∅) as [o db'] eqn:Hrun.
  assert (Hret : ∃ a, o = Returned a).
  { revert Hrun. unfold create_assistant. simpl.
    unfold bind, CassandraClient.upsert_assistant, ret.
    intros [= <- _]. eauto. }
  destruct Hret as [a ->].
  destruct (create_get_fields _ _ _ _ _ _ Hrun)
    as (a' & Hget & Hname' & Hname & _).
  exists a, a', db'.
  split_and!; [reflexivity | exact Hget | reflexivity | exact Hname | exact Hname'].
Qed.

(** ** ModifyAssistant on an id the store has *)

(** C4: on an existing id, the row left under the id is built from the
    request alone, with the defaults applied, whatever the previous row was;
    [metadata], [file_ids] and [tools] missing from the request are stored
    and read back empty. *)
Theorem modify_assistant_replaces now id req (db : gmap string Row.t) before :
  fst (CassandraClient.get_assistant id db) = Returned (Some before) →
  ∃ after stored,
    modify_assistant now id req db
    = (Returned (RetAssistant (Some after)), <[id := stored]> db)
    ∧ stored
      = Row.mk id now
          (ModifyAssistantRequest.name req)
          (Some (default "" (ModifyAssistantRequest.description req)))
          (ModifyAssistantRequest.model req)
          (ModifyAssistantRequest.instructions req)
          (Some (AssistantObjectToolsInner.json <$>
                   default [] (ModifyAssistantRequest.tools req)))
          (Some (default [] (ModifyAssistantRequest.file_ids req)))
          (Some (default ∅ (ModifyAssistantRequest.metadata req)))
          "assistant"
    ∧ row_to_assistant stored = Returned after
    ∧ (ModifyAssistantRequest.metadata req = None →
       Row.metadata stored = Some ∅ ∧ AssistantObject.metadata after = ∅)
    ∧ (ModifyAssistantRequest.file_ids req = None →
       Row.file_ids stored = Some [] ∧ AssistantObject.file_ids after = [])
    ∧ (ModifyAssistantRequest.tools req = None →
       Row.tools stored = Some [] ∧ AssistantObject.tools after = []).
Proof.
  intros Hget. eexists _, _. split_and!.
  - exact (modify_assistant_existing now id req db before Hget).
  - reflexivity.
  - apply row_to_assistant_upserted.
  - by intros ->.
  - by intros ->.
  - by intros ->.
Qed.

Lemma modify_assistant_replaces_run :
  fst (CassandraClient.get_assistant "asst-1" sample_table)
  = Returned (Some (AssistantObject.mk "asst-1" "assistant" 17000 None
                      (Some "") (Some "gpt-4") None
                      [AssistantObjectToolsInner.mk retrieval None] ["f1"] ∅))
  ∧ ∃ after stored,
      modify_assistant 42 "asst-1" sample_modify_empty sample_table
      = (Returned (RetAssistant (Some after)),
         <["asst-1" := stored]> sample_table)
      ∧ stored
        = Row.mk "asst-1" 42 None (Some "") None None (Some []) (Some [])
            (Some ∅) "assistant"
      ∧ row_to_assistant stored = Returned after
      ∧ (ModifyAssistantRequest.metadata sample_modify_empty = None →
         Row.metadata stored = Some ∅ ∧ AssistantObject.metadata after = ∅)
      ∧ (ModifyAssistantRequest.file_ids sample_modify_empty = None →
         Row.file_ids stored = Some [] ∧ AssistantObject.file_ids after = [])
      ∧ (ModifyAssistantRequest.tools sample_modify_empty = None →
         Row.tools stored = Some [] ∧ AssistantObject.tools after = []).
Proof.
  split; [reflexivity|].
  exact (modify_assistant_replaces 42 "asst-1" sample_modify_empty sample_table
           _ eq_refl).
Defined.

(** C6: on an existing id, a modify request with a non-empty [file_ids] and
    no tool of type [retrieval] returns normally, and the record read back
    under the id has these very [file_ids] and [tools]; a create request
    with the same two fields is the one that gets the 400 error. *)
Theorem modify_assistant_skips_coupling now id req (db : gmap string Row.t)
    before file_ids :
  fst (CassandraClient.get_assistant id db) = Returned (Some before) →
  ModifyAssistantRequest.file_ids req = Some file_ids →
  file_ids ≠ [] →
  (∀ tool, tool ∈ default [] (ModifyAssistantRequest.tools req) →
           AssistantObjectToolsInner.type tool ≠ retrieval) →
  ∃ after db',
    modify_assistant now id req db = (Returned (RetAssistant (Some after)), db')
    ∧ get_assistant id db' = (Returned after, db')
    ∧ AssistantObject.file_ids after = file_ids
    ∧ AssistantObject.tools after = default [] (ModifyAssistantRequest.tools req)
    ∧ ∀ new_id name description model instructions metadata,
        create_assistant new_id now
          (CreateAssistantRequest.mk name description model instructions
             (ModifyAssistantRequest.tools req)
             (ModifyAssistantRequest.file_ids req) metadata) db
        = (Raised (HTTPException 400
                     "Retrieval tool is required when file_ids is not []."),
           db).
Proof.
  intros Hget Hfiles Hne Htools. eexists _, _. split_and!.
  - exact (modify_assistant_existing now id req db before Hget).
  - unfold get_assistant, bind. by rewrite adapter_get_upserted.
  - simpl. by rewrite Hfiles.
  - reflexivity.
  - intros. apply create_assistant_coupling; simpl; [by rewrite Hfiles|done].
Qed.

Lemma modify_assistant_skips_coupling_run :
  ∃ before,
    fst (CassandraClient.get_assistant "asst-1" sample_table)
    = Returned (Some before)
    ∧ ModifyAssistantRequest.file_ids sample_modify_files = Some ["f1"; "f2"]
    ∧ ["f1"; "f2"] ≠ []
    ∧ (∀ tool,
         tool ∈ default [] (ModifyAssistantRequest.tools sample_modify_files) →
         AssistantObjectToolsInner.type tool ≠ retrieval)
    ∧ ∃ after db',
        modify_assistant 42 "asst-1" sample_modify_files sample_table
        = (Returned (RetAssistant (Some after)), db')
        ∧ get_assistant "asst-1" db' = (Returned after, db')
        ∧ AssistantObject.file_ids after = ["f1"; "f2"]
        ∧ AssistantObject.tools after
          = [AssistantObjectToolsInner.mk code_interpreter None]
        ∧ ∀ new_id name description model instructions metadata,
            create_assistant new_id 42
              (CreateAssistantRequest.mk name description model instructions
                 (ModifyAssistantRequest.tools sample_modify_files)
                 (ModifyAssistantRequest.file_ids sample_modify_files)
                 metadata) sample_table
            = (Raised (HTTPException 400
                         "Retrieval tool is required when file_ids is not []."),
               sample_table).
Proof.
  assert (H2 : ["f1"; "f2"] ≠ ([] : list string)) by discriminate.
  assert (H3 : ∀ tool,
             tool ∈ default []
                      (ModifyAssistantRequest.tools sample_modify_files) →
             AssistantObjectToolsInner.type tool ≠ retrieval).
  { intros tool Hin. simpl in Hin. apply list_elem_of_singleton in Hin.
    by subst tool. }
  eexists. split_and!; [reflexivity | reflexivity | exact H2 | exact H3 |].
  exact (modify_assistant_skips_coupling 42 "asst-1" sample_modify_files
           sample_table _ ["f1"; "f2"] eq_refl eq_refl H2 H3).
Defined.

(** ** ListAssistants *)

(** C5: on a non-empty table the response holds the whole mapped scan, in
    scan order, whatever [limit], [order], [after] and [before] are;
    [has_more] is false and [first_id], [last_id] are the ids of the first
    and the last row of the scan. A row that does not decode fails the call
    as it fails the mapped scan. *)
Theorem list_assistants_full_scan limit order after before
    (db : gmap string Row.t) :
  db ≠ ∅ →
  ∃ first final,
    head (CassandraClient.scan db) = Some first
    ∧ last (CassandraClient.scan db) = Some final
    ∧ list_assistants limit order after before db
      = ((try data := mapped_scan (CassandraClient.scan db) in
          Returned (ListAssistantsResponse.mk data "assistants"
                      (Row.id first) (Row.id final) false)), db).
Proof.
  intros Hne.
  assert (Hscan : CassandraClient.scan db ≠ []).
  { intros Hnil. by apply Hne, scan_nil_iff. }
  destruct (proj2 (head_is_Some _) Hscan) as [first Hfirst].
  destruct (proj2 (last_is_Some _) Hscan) as [final Hfinal].
  exists first, final. split_and!; [done..|].
  by apply list_assistants_nonempty.
Qed.

Lemma list_assistants_full_scan_run :
  sample_table ≠ ∅
  ∧ ∃ first final,
      head (CassandraClient.scan sample_table) = Some first
      ∧ last (CassandraClient.scan sample_table) = Some final
      ∧ list_assistants 1 "asc" (Some "asst-1") None sample_table
        = ((try data := mapped_scan (CassandraClient.scan sample_table) in
            Returned (ListAssistantsResponse.mk data "assistants"
                        (Row.id first) (Row.id final) false)), sample_table).
Proof.
  assert (Hne : sample_table ≠ ∅) by apply insert_non_empty.
  split; [exact Hne|].
  exact (list_assistants_full_scan 1 "asc" (Some "asst-1") None sample_table
           Hne).
Defined.

(** C8: on the empty table the response is [data=[]], [has_more=false] and
    the two ["none"] markers, for every [limit], [order], [after] and
    [before]. *)
Theorem list_assistants_empty limit order after before :
  list_assistants limit order after before ∅
  = (Returned (ListAssistantsResponse.mk [] "assistant" "none" "none" false),
     ∅).
Proof.
  unfold list_assistants, bind, CassandraClient.selectAllFromTable.
  rewrite (proj2 (scan_nil_iff ∅) eq_refl). reflexivity.
Qed.

(** C10: the [object] field of a list response is ["assistant"] when the
    table is empty and ["assistants"] when it is not. *)
Theorem list_assistants_object limit order after before
    (db db' : gmap string Row.t) response :
  list_assistants limit order after before db = (Returned response, db') →
  ListAssistantsResponse.object response
  = if decide (db = ∅) then "assistant" else "assistants".
Proof.
  intros Hrun. destruct (decide (db = ∅)) as [->|Hne].
  - rewrite list_assistants_empty in Hrun. by injection Hrun as <- _.
  - assert (Hscan : CassandraClient.scan db ≠ []).
    { intros Hnil. by apply Hne, scan_nil_iff. }
    destruct (proj2 (head_is_Some _) Hscan) as [first Hfirst].
    destruct (proj2 (last_is_Some _) Hscan) as [final Hfinal].
    rewrite (list_assistants_nonempty _ _ _ _ _ _ _ Hfirst Hfinal) in Hrun.
    destruct (mapped_scan (CassandraClient.scan db)); simpl in Hrun;
      [|discriminate].
    by injection Hrun as <- _.
Qed.

Lemma list_assistants_object_run :
  (∃ response,
     list_assistants 20 "desc" None None ∅ = (Returned response, ∅)
     ∧ ListAssistantsResponse.object response = "assistant")
  ∧ (∃ response,
       list_assistants 20 "desc" None None sample_table
       = (Returned response, sample_table)
       ∧ ListAssistantsResponse.object response = "assistants").
Proof.
  assert (Hempty : list_assistants 20 "desc" None None ∅
                   = (Returned (ListAssistantsResponse.mk [] "assistant"
                                  "none" "none" false), ∅))
    by (vm_compute; reflexivity).
  assert (Hone : list_assistants 20 "desc" None None sample_table
                 = (Returned (ListAssistantsResponse.mk
                      [AssistantObject.mk "asst-1" "assistant" 17000 None
                         (Some "") (Some "gpt-4") None
                         [AssistantObjectToolsInner.mk retrieval None]
                         ["f1"] ∅]
                      "assistants" "asst-1" "asst-1" false), sample_table))
    by (vm_compute; reflexivity).
  split; eexists; (split; [eassumption|]).
  - exact (list_assistants_object 20 "desc" None None ∅ ∅ _ Hempty).
  - exact (list_assistants_object 20 "desc" None None sample_table
             sample_table _ Hone).
Defined.

(** ** DeleteAssistant and GetAssistant *)

(** C7: [delete_assistant] returns [{id, deleted: true}] for every id and
    every table, and so does a second delete of the same id on the table the
    first one left. *)
Theorem delete_assistant_reports_success id (db : gmap string Row.t) :
  delete_assistant id db
  = (Returned (DeleteAssistantResponse.mk id true "assistant"), delete id db)
  ∧ delete_assistant id (snd (delete_assistant id db))
    = (Returned (DeleteAssistantResponse.mk id true "assistant"),
       delete id db).
Proof.
  unfold delete_assistant, bind, CassandraClient.delete_assistant, ret.
  simpl. split; [done|]. by rewrite delete_delete_eq.
Qed.

(** C9: [get_assistant] on an id the table does not have ends with the 404
    error; so does [get_assistant] on the table a delete of that id left. *)
Theorem get_assistant_not_found id (db : gmap string Row.t) :
  (db !! id = None →
   get_assistant id db
   = (Raised (HTTPException 404 "Assistant not found."), db))
  ∧ get_assistant id (snd (delete_assistant id db))
    = (Raised (HTTPException 404 "Assistant not found."), delete id db).
Proof.
  assert (Habsent : ∀ db0 : gmap string Row.t, db0 !! id = None →
            get_assistant id db0
            = (Raised (HTTPException 404 "Assistant not found."), db0)).
  { intros db0 Hnone.
    unfold get_assistant, bind, CassandraClient.get_assistant.
    by rewrite Hnone. }
  split; [apply Habsent|].
  apply Habsent. apply lookup_delete_eq.
Qed.

Lemma get_assistant_not_found_run :
  sample_table !! "asst-9" = None
  ∧ get_assistant "asst-9" sample_table
    = (Raised (HTTPException 404 "Assistant not found."), sample_table)
  ∧ (∃ a, get_assistant "asst-1" sample_table = (Returned a, sample_table))
  ∧ get_assistant "asst-1" (snd (delete_assistant "asst-1" sample_table))
    = (Raised (HTTPException 404 "Assistant not found."),
       delete "asst-1" sample_table).
Proof.
  split_and!.
  - reflexivity.
  - exact (proj1 (get_assistant_not_found "asst-9" sample_table) eq_refl).
  - eexists. reflexivity.
  - exact (proj2 (get_assistant_not_found "asst-1" sample_table)).
Defined.

(** * Further properties of the routes *)

(** ** Rows and their public form *)

Lemma parse_obj_error members e :
  FunctionObject.parse_obj members = Raised e → e = ValidationError.
Proof.
  unfold FunctionObject.parse_obj, Json.opt_string.
  destruct (Json.get "description" members) as [[| |]|]; simpl;
    try congruence;
    (destruct (Json.get "parameters" members) as [[| |]|]; simpl;
     try congruence;
     destruct (Json.get "name" members) as [[| |]|]; congruence).
Qed.

Lemma parse_raw_error doc e :
  AssistantObjectToolsInner.parse_raw doc = Raised e → e = ValidationError.
Proof.
  unfold AssistantObjectToolsInner.parse_raw.
  destruct doc as [| |members]; try congruence.
  destruct (Json.get "type" members) as [[|s|]|]; try congruence.
  destruct (ToolType_of_str s); try congruence.
  destruct (Json.get "function" members) as [[| |fm]|]; try congruence.
  destruct (FunctionObject.parse_obj fm) eqn:Hf; simpl; [congruence|].
  apply parse_obj_error in Hf. congruence.
Qed.

Lemma decode_tools_error toolsJson acc e :
  decode_tools toolsJson acc = Raised e → e = ValidationError.
Proof.
  revert acc. induction toolsJson as [|doc rest IH]; intros acc; simpl.
  - discriminate.
  - destruct (AssistantObjectToolsInner.parse_raw doc) eqn:Hdoc; simpl.
    + apply IH.
    + apply parse_raw_error in Hdoc. congruence.
Qed.

Lemma row_to_assistant_error row e :
  row_to_assistant row = Raised e → e = ValidationError.
Proof.
  unfold row_to_assistant.
  destruct (Row.tools row) as [toolsJson|]; simpl; [|discriminate].
  destruct (decode_tools toolsJson []) eqn:Hdec; simpl; [discriminate|].
  apply decode_tools_error in Hdec. congruence.
Qed.

(** What the mapping keeps of a row. *)
Lemma row_to_assistant_fields row a :
  row_to_assistant row = Returned a →
  AssistantObject.id a = Row.id row
  ∧ AssistantObject.object a = "assistant"
  ∧ AssistantObject.created_at a = (Row.created_at row * 1000)%Z
  ∧ AssistantObject.name a = Row.name row
  ∧ AssistantObject.description a = Row.description row
  ∧ AssistantObject.model a = Row.model row
  ∧ AssistantObject.instructions a = Row.instructions row
  ∧ AssistantObject.file_ids a = default [] (Row.file_ids row)
  ∧ AssistantObject.metadata a = default ∅ (Row.metadata row).
Proof.
  unfold row_to_assistant.
  destruct (match Row.tools row with
            | Some toolsJson => decode_tools toolsJson []
            | None => Returned []
            end); simpl; [|discriminate].
  intros [= <-]. simpl. split_and!; reflexivity.
Qed.

(** ** The mapped scan, row by row *)

Lemma mapped_scan_Forall2 rows data :
  mapped_scan rows = Returned data
  ↔ Forall2 (λ row a, row_to_assistant row = Returned a) rows data.
Proof.
  revert data. induction rows as [|row rows IH]; intros data; simpl.
  - split.
    + intros [= <-]. constructor.
    + intros Hall. by inversion Hall.
  - split.
    + destruct (row_to_assistant row) as [a|] eqn:Hrow; simpl; [|discriminate].
      destruct (mapped_scan rows) as [l|]; simpl; [|discriminate].
      intros [= <-]. constructor; [done|]. by apply IH.
    + intros Hall. inversion Hall as [|? a ? l Hrow Hrest]; subst.
      rewrite Hrow. simpl. apply IH in Hrest. by rewrite Hrest.
Qed.

Lemma mapped_scan_error rows e :
  mapped_scan rows = Raised e → e = ValidationError.
Proof.
  induction rows as [|row rows IH]; simpl; [discriminate|].
  destruct (row_to_assistant row) eqn:Hrow; simpl.
  - destruct (mapped_scan rows); simpl; [discriminate|].
    intros [= <-]. by apply IH.
  - intros [= <-]. by apply row_to_assistant_error in Hrow.
Qed.

Lemma mapped_scan_fails rows row e :
  row ∈ rows → row_to_assistant row = Raised e →
  mapped_scan rows = Raised ValidationError.
Proof.
  intros Hin Hrow.
  destruct (mapped_scan rows) as [data|e'] eqn:Hscan.
  - apply mapped_scan_Forall2 in Hscan.
    apply list_elem_of_lookup in Hin as [i Hi].
    destruct (Forall2_lookup_l _ _ _ _ _ Hscan Hi) as (a & _ & Ha).
    congruence.
  - apply mapped_scan_error in Hscan. by subst.
Qed.

Lemma mapped_scan_ids rows data :
  mapped_scan rows = Returned data →
  AssistantObject.id <$> data = Row.id <$> rows.
Proof.
  intros Hall%mapped_scan_Forall2.
  induction Hall as [|row a rows data Hrow _ IH]; [done|].
  rewrite !fmap_cons, IH.
  by destruct (row_to_assistant_fields _ _ Hrow) as [-> _].
Qed.

Lemma elem_of_scan (db : gmap string Row.t) row :
  row ∈ CassandraClient.scan db ↔ ∃ k, db !! k = Some row.
Proof.
  unfold CassandraClient.scan. rewrite list_elem_of_fmap. split.
  - intros ([k row'] & -> & Hin). exists k. by apply elem_of_map_to_list.
  - intros [k Hk]. exists (k, row). split; [done|].
    by apply elem_of_map_to_list.
Qed.

Lemma length_scan (db : gmap string Row.t) :
  length (CassandraClient.scan db) = size db.
Proof.
  unfold CassandraClient.scan. by rewrite length_fmap, length_map_to_list.
Qed.

(** [list_assistants] in one equation, for every table. *)
Lemma list_assistants_cases limit order after before
    (db : gmap string Row.t) :
  list_assistants limit order after before db
  = match CassandraClient.scan db with
    | [] =>
        (Returned (ListAssistantsResponse.mk [] "assistant" "none" "none"
                     false), db)
    | first :: rest =>
        ((try data := mapped_scan (first :: rest) in
          Returned (ListAssistantsResponse.mk data "assistants"
                      (Row.id first)
                      (Row.id (default first (last rest))) false)), db)
    end.
Proof.
  destruct (CassandraClient.scan db) as [|first rest] eqn:Hscan.
  - apply scan_nil_iff in Hscan. subst db.
    unfold list_assistants, bind, CassandraClient.selectAllFromTable.
    by rewrite (proj2 (scan_nil_iff ∅) eq_refl).
  - rewrite <- Hscan.
    apply list_assistants_nonempty; rewrite Hscan; [done|].
    destruct rest as [|second rest]; [done|].
    change (last (first :: second :: rest)) with (last (second :: rest)).
    by destruct (last (second :: rest)) eqn:Hlast;
      [|apply last_None in Hlast].
Qed.

(** ** When [create_assistant] accepts a request *)


(** X2: a create that returns has written one row, under the generated id;
    every other key reads as before. The object it returns carries that id,
    the clock value as [created_at], and neither a null [name] nor a null
    [description]. *)
Theorem create_assistant_writes_one_row assistant_id now req
    (db db' : gmap string Row.t) a :
  create_assistant assistant_id now req db = (Returned a, db') →
  AssistantObject.id a = assistant_id
  ∧ AssistantObject.object a = "assistant"
  ∧ AssistantObject.created_at a = now
  ∧ is_Some (AssistantObject.name a)
  ∧ is_Some (AssistantObject.description a)
  ∧ (∃ row, db' !! assistant_id = Some row ∧ Row.id row = assistant_id)
  ∧ dom db' = {[assistant_id]} ∪ dom db
  ∧ ∀ k, k ≠ assistant_id → db' !! k = db !! k.
Proof.
  intros [-> ->]%create_assistant_returned. simpl. split_and!; try done.
  - eexists. by rewrite lookup_insert_eq.
  - apply dom_insert_L.
  - intros k Hk. by rewrite lookup_insert_ne.
Qed.

Lemma create_assistant_writes_one_row_run :
  ∃ a,
    create_assistant "asst-1" 17 sample_create ∅ = (Returned a, sample_table)
    ∧ AssistantObject.id a = "asst-1"
    ∧ AssistantObject.object a = "assistant"
    ∧ AssistantObject.created_at a = 17%Z
    ∧ is_Some (AssistantObject.name a)
    ∧ is_Some (AssistantObject.description a)
    ∧ (∃ row, sample_table !! "asst-1" = Some row ∧ Row.id row = "asst-1")
    ∧ dom sample_table = {[ "asst-1" ]} ∪ dom (∅ : gmap string Row.t)
    ∧ ∀ k, k ≠ "asst-1" → sample_table !! k = (∅ : gmap string Row.t) !! k.
Proof.
  assert (Hrun : create_assistant "asst-1" 17 sample_create ∅
                 = (Returned (AssistantObject.mk "asst-1" "assistant" 17
                      (Some "") (Some "") (Some "gpt-4") None
                      [AssistantObjectToolsInner.mk retrieval None]
                      ["f1"] ∅), sample_table))
    by (vm_compute; reflexivity).
  eexists. split; [exact Hrun|].
  exact (create_assistant_writes_one_row "asst-1" 17 sample_create ∅
           sample_table _ Hrun).
Defined.



(** ** The shape of a list response *)

Lemma last_cons_default {A} (x : A) (l : list A) :
  last (x :: l) = Some (default x (last l)).
Proof.
  destruct l as [|y l]; [done|].
  change (last (x :: y :: l)) with (last (y :: l)).
  destruct (last (y :: l)) eqn:Hlast; [done|]. by apply last_None in Hlast.
Qed.

(** X4: a list call that returns has one entry per row of the table, in
    scan order and with the rows' ids; every entry is tagged ["assistant"],
    [has_more] is false, and on a non-empty table [first_id] and [last_id]
    are the ids of the first and the last entry of [data]. *)
Theorem list_assistants_shape limit order after before
    (db db' : gmap string Row.t) response :
  list_assistants limit order after before db = (Returned response, db') →
  ListAssistantsResponse.has_more response = false
  ∧ length (ListAssistantsResponse.data response) = size db
  ∧ AssistantObject.id <$> ListAssistantsResponse.data response
    = Row.id <$> CassandraClient.scan db
  ∧ Forall (λ a, AssistantObject.object a = "assistant")
      (ListAssistantsResponse.data response)
  ∧ (db ≠ ∅ →
     head (AssistantObject.id <$> ListAssistantsResponse.data response)
     = Some (ListAssistantsResponse.first_id response)
     ∧ last (AssistantObject.id <$> ListAssistantsResponse.data response)
       = Some (ListAssistantsResponse.last_id response)).
Proof.
  rewrite list_assistants_cases. rewrite <- (length_scan db).
  destruct (CassandraClient.scan db) as [|first rest] eqn:Hscan.
  - intros [= <- _]. simpl. split_and!; try done.
    intros Hne. by apply scan_nil_iff in Hscan.
  - destruct (mapped_scan (first :: rest)) as [data|] eqn:Hmap; simpl;
      [|discriminate].
    intros [= <- _]. simpl.
    pose proof (mapped_scan_ids _ _ Hmap) as Hids.
    apply mapped_scan_Forall2 in Hmap. split_and!.
    + done.
    + symmetry. exact (Forall2_length _ _ _ Hmap).
    + exact Hids.
    + apply Forall_forall. intros a [i Hi]%list_elem_of_lookup.
      destruct (Forall2_lookup_r _ _ _ _ _ Hmap Hi) as (row & _ & Hrow).
      by destruct (row_to_assistant_fields _ _ Hrow) as (_ & -> & _).
    + intros _. rewrite Hids. split; [done|].
      by rewrite fmap_last, last_cons_default.
Qed.

Lemma list_assistants_shape_run :
  ∃ response,
    list_assistants 20 "desc" None None sample_table
    = (Returned response, sample_table)
    ∧ ListAssistantsResponse.has_more response = false
    ∧ length (ListAssistantsResponse.data response) = size sample_table
    ∧ AssistantObject.id <$> ListAssistantsResponse.data response
      = Row.id <$> CassandraClient.scan sample_table
    ∧ Forall (λ a, AssistantObject.object a = "assistant")
        (ListAssistantsResponse.data response)
    ∧ (sample_table ≠ ∅ →
       head (AssistantObject.id <$> ListAssistantsResponse.data response)
       = Some (ListAssistantsResponse.first_id response)
       ∧ last (AssistantObject.id <$> ListAssistantsResponse.data response)
         = Some (ListAssistantsResponse.last_id response)).
Proof.
  assert (Hlist : list_assistants 20 "desc" None None sample_table
                  = (Returned (ListAssistantsResponse.mk
                       [AssistantObject.mk "asst-1" "assistant" 17000 None
                          (Some "") (Some "gpt-4") None
                          [AssistantObjectToolsInner.mk retrieval None]
                          ["f1"] ∅]
                       "assistants" "asst-1" "asst-1" false), sample_table))
    by (vm_compute; reflexivity).
  eexists. split; [exact Hlist|].
  exact (list_assistants_shape 20 "desc" None None sample_table sample_table
           _ Hlist).
Defined.

(** X5: one row that does not decode fails the whole list call with a
    validation error, whatever the other rows are; no partial list is
    returned and the table is as before. *)
Theorem list_assistants_fails_whole limit order after before
    (db : gmap string Row.t) k row e :
  db !! k = Some row →
  row_to_assistant row = Raised e →
  list_assistants limit order after before db = (Raised ValidationError, db).
Proof.
  intros Hk Hrow.
  assert (Hin : row ∈ CassandraClient.scan db)
    by (apply elem_of_scan; eauto).
  rewrite list_assistants_cases.
  destruct (CassandraClient.scan db) as [|first rest];
    [by apply elem_of_nil in Hin|].
  by rewrite (mapped_scan_fails _ _ _ Hin Hrow).
Qed.

Lemma list_assistants_fails_whole_run :
  sample_broken_table !! "asst-2" = Some sample_broken_row
  ∧ row_to_assistant sample_broken_row = Raised ValidationError
  ∧ (∃ a, get_assistant "asst-1" sample_broken_table
          = (Returned a, sample_broken_table))
  ∧ list_assistants 20 "desc" None None sample_broken_table
    = (Raised ValidationError, sample_broken_table).
Proof.
  assert (H1 : sample_broken_table !! "asst-2" = Some sample_broken_row)
    by reflexivity.
  assert (H2 : row_to_assistant sample_broken_row = Raised ValidationError)
    by reflexivity.
  split_and!; [exact H1 | exact H2 | |].
  - eexists. vm_compute. reflexivity.
  - exact (list_assistants_fails_whole 20 "desc" None None
             sample_broken_table "asst-2" sample_broken_row ValidationError
             H1 H2).
Defined.

(** ** The routes case by case *)


Lemma modify_assistant_absent now id req (db : gmap string Row.t) :
  db !! id = None →
  modify_assistant now id req db = (Returned (RetCoroutine id req), db).
Proof.
  intros Hnone. unfold modify_assistant, bind, CassandraClient.get_assistant.
  by rewrite Hnone.
Qed.

Lemma modify_assistant_undecodable now id req (db : gmap string Row.t) row e :
  db !! id = Some row → row_to_assistant row = Raised e →
  modify_assistant now id req db = (Raised e, db).
Proof.
  intros Hrow Herr. unfold modify_assistant, bind, CassandraClient.get_assistant.
  by rewrite Hrow, Herr.
Qed.

Lemma adapter_get_decoded id (db : gmap string Row.t) row a :
  db !! id = Some row → row_to_assistant row = Returned a →
  CassandraClient.get_assistant id db = (Returned (Some a), db).
Proof.
  intros Hrow Hdec. unfold CassandraClient.get_assistant.
  by rewrite Hrow, Hdec.
Qed.

Lemma get_assistant_returned id (db db' : gmap string Row.t) a :
  get_assistant id db = (Returned a, db') →
  db' = db ∧ ∃ row, db !! id = Some row ∧ row_to_assistant row = Returned a.
Proof.
  unfold get_assistant, bind, CassandraClient.get_assistant.
  destruct (db !! id) as [row|]; [|discriminate].
  destruct (row_to_assistant row) as [a'|] eqn:Hdec; [|discriminate].
  unfold ret. intros [= <- <-]. eauto.
Qed.

Lemma decodes_true row :
  decodes row = true ↔ ∃ a, row_to_assistant row = Returned a.
Proof.
  unfold decodes. destruct (row_to_assistant row); split;
    [eauto | done | discriminate | intros [? [=]]].
Qed.

Lemma mapped_scan_total rows :
  Forall (λ row, decodes row = true) rows →
  ∃ data, mapped_scan rows = Returned data.
Proof.
  induction 1 as [|row rows [a Hrow]%decodes_true _ [data IH]]; simpl.
  - eauto.
  - rewrite Hrow, IH. simpl. eauto.
Qed.


(** ** The invariant of the table *)



(** X7: on a well-formed table [list_assistants] always returns, and the
    ids it lists are the keys of the table, in scan order. *)
Theorem list_assistants_on_consistent limit order after before
    (db : gmap string Row.t) :
  consistent db →
  ∃ response,
    list_assistants limit order after before db = (Returned response, db)
    ∧ AssistantObject.id <$> ListAssistantsResponse.data response
      = fst <$> map_to_list db.
Proof.
  intros Hdb.
  assert (Hdec : Forall (λ row, decodes row = true) (CassandraClient.scan db)).
  { apply Forall_forall. intros row [k Hk]%elem_of_scan.
    by destruct (Hdb k row Hk). }
  assert (Hkeys : Row.id <$> CassandraClient.scan db = fst <$> map_to_list db).
  { unfold CassandraClient.scan. rewrite <- list_fmap_compose.
    apply list_fmap_ext. intros i [k row] Hi%list_elem_of_lookup_2.
    apply elem_of_map_to_list in Hi. by destruct (Hdb k row Hi). }
  destruct (mapped_scan_total _ Hdec) as [data Hmap].
  rewrite list_assistants_cases. rewrite <- Hkeys.
  destruct (CassandraClient.scan db) as [|first rest] eqn:Hscan.
  - eexists. split; reflexivity.
  - rewrite Hmap. simpl. eexists. split; [reflexivity|].
    exact (mapped_scan_ids _ _ Hmap).
Qed.

Lemma list_assistants_on_consistent_run :
  consistent sample_table
  ∧ ∃ response,
      list_assistants 5 "asc" None (Some "asst-1") sample_table
      = (Returned response, sample_table)
      ∧ AssistantObject.id <$> ListAssistantsResponse.data response
        = fst <$> map_to_list sample_table.
Proof.
  assert (Hok : consistent sample_table).
  { apply map_Forall_insert_2; [by split|apply map_Forall_empty]. }
  split; [exact Hok|].
  exact (list_assistants_on_consistent 5 "asc" None (Some "asst-1")
           sample_table Hok).
Defined.

(** X8: on a well-formed table [get_assistant] either finds no row and
    raises the 404 error, or returns an object whose [id] is the id asked
    for; it never raises a validation error there. *)
Theorem get_assistant_on_consistent id (db : gmap string Row.t) :
  consistent db →
  (db !! id = None
   ∧ get_assistant id db
     = (Raised (HTTPException 404 "Assistant not found."), db))
  ∨ (∃ a, get_assistant id db = (Returned a, db) ∧ AssistantObject.id a = id).
Proof.
  intros Hdb. unfold get_assistant, bind, CassandraClient.get_assistant.
  destruct (db !! id) as [row|] eqn:Hrow; [right|by left].
  destruct (Hdb id row Hrow) as [Hid [a Hdec]%decodes_true].
  rewrite Hdec. exists a. split; [done|].
  by destruct (row_to_assistant_fields _ _ Hdec) as [-> _].
Qed.

Lemma get_assistant_on_consistent_run :
  consistent sample_table
  ∧ ((sample_table !! "asst-1" = None
      ∧ get_assistant "asst-1" sample_table
        = (Raised (HTTPException 404 "Assistant not found."), sample_table))
     ∨ (∃ a, get_assistant "asst-1" sample_table = (Returned a, sample_table)
              ∧ AssistantObject.id a = "asst-1")).
Proof.
  assert (Hok : consistent sample_table).
  { apply map_Forall_insert_2; [by split|apply map_Forall_empty]. }
  split; [exact Hok|].
  exact (get_assistant_on_consistent "asst-1" sample_table Hok).
Defined.

(** ** How the routes compose *)

(** X9: what [get_assistant] returns for an id is an entry of what
    [list_assistants] returns on the same table. *)
Theorem get_assistant_in_list id limit order after before
    (db db1 db2 : gmap string Row.t) a response :
  get_assistant id db = (Returned a, db1) →
  list_assistants limit order after before db = (Returned response, db2) →
  a ∈ ListAssistantsResponse.data response.
Proof.
  intros (_ & row & Hrow & Hdec)%get_assistant_returned Hlist.
  assert (Hin : row ∈ CassandraClient.scan db)
    by (apply elem_of_scan; eauto).
  rewrite list_assistants_cases in Hlist.
  destruct (CassandraClient.scan db) as [|first rest];
    [by apply elem_of_nil in Hin|].
  destruct (mapped_scan (first :: rest)) as [data|] eqn:Hmap;
    simpl in Hlist; [|discriminate].
  injection Hlist as <- _. simpl.
  apply mapped_scan_Forall2 in Hmap.
  apply list_elem_of_lookup in Hin as [i Hi].
  destruct (Forall2_lookup_l _ _ _ _ _ Hmap Hi) as (a' & Ha' & Hdec').
  assert (a' = a) as -> by congruence.
  by eapply list_elem_of_lookup_2.
Qed.

Lemma get_assistant_in_list_run :
  ∃ a response,
    get_assistant "asst-1" sample_table = (Returned a, sample_table)
    ∧ list_assistants 20 "desc" None None sample_table
      = (Returned response, sample_table)
    ∧ a ∈ ListAssistantsResponse.data response.
Proof.
  assert (Hget : get_assistant "asst-1" sample_table
                 = (Returned (AssistantObject.mk "asst-1" "assistant" 17000
                      None (Some "") (Some "gpt-4") None
                      [AssistantObjectToolsInner.mk retrieval None]
                      ["f1"] ∅), sample_table))
    by (vm_compute; reflexivity).
  assert (Hlist : list_assistants 20 "desc" None None sample_table
                  = (Returned (ListAssistantsResponse.mk
                       [AssistantObject.mk "asst-1" "assistant" 17000 None
                          (Some "") (Some "gpt-4") None
                          [AssistantObjectToolsInner.mk retrieval None]
                          ["f1"] ∅]
                       "assistants" "asst-1" "asst-1" false), sample_table))
    by (vm_compute; reflexivity).
  eexists _, _. split; [exact Hget|]. split; [exact Hlist|].
  exact (get_assistant_in_list "asst-1" 20 "desc" None None sample_table
           sample_table sample_table _ _ Hget Hlist).
Defined.



(** X11: modifying twice with the same request at the same clock value
    gives the result and the table of modifying once. *)
Theorem modify_assistant_idempotent now id req (db : gmap string Row.t)
    before :
  fst (CassandraClient.get_assistant id db) = Returned (Some before) →
  modify_assistant now id req (snd (modify_assistant now id req db))
  = modify_assistant now id req db.
Proof.
  intros Hget.
  rewrite (modify_assistant_existing now id req db before Hget). simpl.
  erewrite modify_assistant_existing
    by (by rewrite adapter_get_upserted).
  by rewrite insert_insert_eq.
Qed.

Lemma modify_assistant_idempotent_run :
  ∃ before,
    fst (CassandraClient.get_assistant "asst-1" sample_table)
    = Returned (Some before)
    ∧ modify_assistant 42 "asst-1" sample_modify_files
        (snd (modify_assistant 42 "asst-1" sample_modify_files sample_table))
      = modify_assistant 42 "asst-1" sample_modify_files sample_table.
Proof.
  assert (Hget : fst (CassandraClient.get_assistant "asst-1" sample_table)
                 = Returned (Some (AssistantObject.mk "asst-1" "assistant"
                      17000 None (Some "") (Some "gpt-4") None
                      [AssistantObjectToolsInner.mk retrieval None]
                      ["f1"] ∅)))
    by (vm_compute; reflexivity).
  eexists. split; [exact Hget|].
  exact (modify_assistant_idempotent 42 "asst-1" sample_modify_files
           sample_table _ Hget).
Defined.

(** X12: [modify_assistant] never adds or removes a record: whatever it
    ends with, the table has the keys it had, and every row but the one
    under the given id is untouched. *)
Theorem modify_assistant_keeps_keys now id req (db : gmap string Row.t) :
  dom (snd (modify_assistant now id req db)) = dom db
  ∧ ∀ k, k ≠ id → snd (modify_assistant now id req db) !! k = db !! k.
Proof.
  destruct (db !! id) as [row|] eqn:Hrow.
  - destruct (row_to_assistant row) as [old|e] eqn:Hdec.
    + rewrite (modify_assistant_existing now id req db old)
        by (by rewrite (adapter_get_decoded _ _ _ _ Hrow Hdec)).
      simpl. split.
      * by apply dom_insert_lookup_L.
      * intros k Hk. by rewrite lookup_insert_ne.
    + by rewrite (modify_assistant_undecodable _ _ _ _ _ _ Hrow Hdec).
  - by rewrite (modify_assistant_absent _ _ _ _ Hrow).
Qed.

(** X13: a create under a fresh id followed by a delete of that id gives
    back the table there was before the create. *)
Theorem create_then_delete assistant_id now req (db db' : gmap string Row.t) a :
  db !! assistant_id = None →
  create_assistant assistant_id now req db = (Returned a, db') →
  snd (delete_assistant (AssistantObject.id a) db') = db.
Proof.
  intros Hfresh [-> ->]%create_assistant_returned. simpl.
  by apply delete_insert_id.
Qed.

Lemma create_then_delete_run :
  ∃ a,
    (∅ : gmap string Row.t) !! "asst-1" = None
    ∧ create_assistant "asst-1" 17 sample_create ∅ = (Returned a, sample_table)
    ∧ snd (delete_assistant (AssistantObject.id a) sample_table) = ∅.
Proof.
  assert (Hrun : create_assistant "asst-1" 17 sample_create ∅
                 = (Returned (AssistantObject.mk "asst-1" "assistant" 17
                      (Some "") (Some "") (Some "gpt-4") None
                      [AssistantObjectToolsInner.mk retrieval None]
                      ["f1"] ∅), sample_table))
    by (vm_compute; reflexivity).
  eexists. split; [reflexivity|]. split; [exact Hrun|].
  exact (create_then_delete "asst-1" 17 sample_create ∅ sample_table _
           eq_refl Hrun).
Defined.

(** X14: [list_assistants] and [get_assistant] never write: the table they
    leave is the table they were given, whether they return or raise. *)
Theorem reads_leave_table limit order after before id
    (db : gmap string Row.t) :
  snd (list_assistants limit order after before db) = db
  ∧ snd (get_assistant id db) = db.
Proof.
  split.
  - rewrite list_assistants_cases.
    by destruct (CassandraClient.scan db).
  - unfold get_assistant, bind, CassandraClient.get_assistant.
    destruct (db !! id) as [row|]; [|done].
    by destruct (row_to_assistant row).
Qed.
